(** * Live currency converter (st_curreny_converter.py)

    A shallow embedding of the Streamlit script and of its helper
    [get_exchange_rate], with the properties of the rate fetcher and of
    the conversion page.

    Python values are an inductive type, the JSON objects of the provider
    are finite maps from strings, floats are IEEE-754 binary64 values
    (the Standard Library's [spec_float]), and the effects of the script
    (HTTP requests, log records, session state, rendered elements,
    exceptions) are threaded through a reader/state/exception monad. *)

From Stdlib Require Import ZArith String Ascii List DecimalString.
From Stdlib Require Import SpecFloat.
From stdpp Require Import base option gmap strings list.

Set Warnings "-register-all".
Local Open Scope string_scope.
Local Open Scope Z_scope.

(** ** Python values *)

(** The values [response.json()] can produce, which are also the values
    the script passes around.  A JSON object has string keys. *)
Inductive pyval : Type :=
  | PyNone
  | PyBool (b : bool)
  | PyInt (z : Z)
  | PyFloat (f : spec_float)
  | PyStr (s : string)
  | PyList (l : list pyval)
  | PyDict (d : gmap string pyval).

(** The exceptions the script can meet; all of them derive from
    [Exception]. *)
Inductive exception : Type :=
  | Timeout                (* requests.exceptions.Timeout *)
  | ConnectionError        (* DNS failure, refused or reset connection *)
  | TooManyRedirects
  | HTTPError (status : Z) (* raised by raise_for_status *)
  | JSONDecodeError
  | AttributeError
  | TypeError
  | ValueError
  | KeyError (key : string)
  | OverflowError.

Inductive result (A : Type) : Type :=
  | Ok (a : A)
  | Raise (e : exception).
Arguments Ok {A} a.
Arguments Raise {A} e.

(** ** The world around the script *)

(** A [requests.Response]: its status code and what [.json()] gives,
    [None] when the body is not JSON (the call then raises). *)
Record response : Type := Response {
  status_code : Z;
  json_body : option pyval
}.

(** What [requests.get] does: it raises or it returns a response. *)
Inductive http_outcome : Type :=
  | Fails (e : exception)
  | Responds (r : response).

Inductive level : Type := INFO | ERROR.

(** A record of the logging module: level, message template, arguments
    and, for [logging.exception], the exception being handled. *)
Record log_record : Type := LogRecord {
  log_level : level;
  log_msg : string;
  log_args : list pyval;
  log_exc : option exception
}.

(** Elements the script renders on the page. *)
Inductive element : Type :=
  | StTitle (body : string)
  | StWrite (body : string)
  | StSubheader (body : string)
  | StSpinner (text : string)
  | StWarning (body : string)
  | StError (body : string)
  | StSuccess (body : string)
  | StMetric (label value delta : string)
  | StCaption (api_time : pyval) (local_time : string).

(** What the script reads from outside during one run: the answer of the
    network to [requests.get(url, timeout=t)], the value every widget
    returns (widgets are named by their label), and the local time
    already formatted by [strftime("%Y-%m-%d %H:%M:%S")]. *)
Record env : Type := Env {
  network : string → Z → http_outcome;
  selectbox_value : string → string;
  number_input_value : string → spec_float;
  button_clicked : string → bool;
  local_now : string
}.

(** What the script changes: the requests made so far (url and timeout,
    oldest first), the records the logging calls handed to the handler
    of currency_converter.log, the entries of Streamlit's session state
    that the script itself reads and writes, and the elements rendered
    so far.

    A log record is a logging call: its template and its arguments,
    unformatted.  The handler writes one line per record, except that a
    record whose template does not format with its arguments (a [%f]
    given a str, say) is reported on stderr and leaves no line; which
    records leave a line is [formats], below.  The entries Streamlit keeps
    in the session state for the keyed widgets (from_currency_select,
    to_currency_select) are Streamlit's own and are not modelled. *)
Record state : Type := State {
  requests_sent : list (string * Z);
  log_file : list log_record;
  session_state : gmap string string;
  page : list element
}.

Definition add_request (q : string * Z) (s : state) : state :=
  State (requests_sent s ++ [q]) (log_file s) (session_state s) (page s).

Definition add_log (r : log_record) (s : state) : state :=
  State (requests_sent s) (log_file s ++ [r]) (session_state s) (page s).

Definition set_session (k v : string) (s : state) : state :=
  State (requests_sent s) (log_file s) (<[k := v]> (session_state s)) (page s).

Definition add_element (e : element) (s : state) : state :=
  State (requests_sent s) (log_file s) (session_state s) (page s ++ [e]).

(** ** The monad of the script *)

Definition M (A : Type) : Type := env → state → result A * state.

Definition run {A} (m : M A) (e : env) (s : state) : result A * state := m e s.

#[global] Instance M_ret : MRet M := λ A a _ s, (Ok a, s).

#[global] Instance M_bind : MBind M := λ A B f m e s,
  match m e s with
  | (Ok a, s') => f a e s'
  | (Raise x, s') => (Raise x, s')
  end.

Definition raise {A} (x : exception) : M A := λ _ s, (Raise x, s).

(** [try: body except Exception: handler] *)
Definition try_except {A} (body : M A) (handler : exception → M A) : M A :=
  λ e s,
    match body e s with
    | (Ok a, s') => (Ok a, s')
    | (Raise x, s') => handler x e s'
    end.

(** [if b: body], without an else branch *)
Definition when (b : bool) (body : M unit) : M unit :=
  if b then body else mret tt.

Definition ask : M env := λ e s, (Ok e, s).
Definition get : M state := λ _ s, (Ok s, s).
Definition modify (f : state → state) : M unit := λ _ s, (Ok tt, f s).

(** ** Built-ins and library calls *)

(** [str.upper] on ASCII text, which currency codes are: the letters a-z
    become A-Z, every other character is kept.  Strings are sequences of
    bytes; the case rules of non-ASCII text are outside the model. *)
Definition upper_ascii (c : ascii) : ascii :=
  let n := nat_of_ascii c in
  if (Nat.leb 97 n && Nat.leb n 122)%bool then ascii_of_nat (n - 32) else c.

Fixpoint upper (s : string) : string :=
  match s with
  | EmptyString => EmptyString
  | String c s' => String (upper_ascii c) (upper s')
  end.

(** [v.get(key, dflt)]: a method of dicts only. *)
Definition py_get (v : pyval) (key : string) (dflt : pyval) : M pyval :=
  match v with
  | PyDict d => mret (default dflt (d !! key))
  | _ => raise AttributeError
  end.

(** [v != s] for a str literal [s]: only the same str compares equal. *)
Definition py_ne_str (v : pyval) (s : string) : bool :=
  match v with
  | PyStr t => negb (String.eqb t s)
  | _ => true
  end.

(** [v is None] *)
Definition is_None (v : pyval) : bool :=
  match v with PyNone => true | _ => false end.

(** The logging calls hand a record to the handler and never raise, also
    when the handler then fails to format the record. *)
Definition logging_info (msg : string) (args : list pyval) : M unit :=
  modify (add_log (LogRecord INFO msg args None)).

Definition logging_error (msg : string) (args : list pyval) : M unit :=
  modify (add_log (LogRecord ERROR msg args None)).

Definition logging_exception (x : exception) (msg : string) (args : list pyval)
  : M unit :=
  modify (add_log (LogRecord ERROR msg args (Some x))).

(** [requests.get(url, timeout=t)] *)
Definition requests_get (url : string) (timeout : Z) : M response :=
  modify (add_request (url, timeout));;
  e ← ask;
  match network e url timeout with
  | Fails x => raise x
  | Responds r => mret r
  end.

(** [response.raise_for_status()]: HTTPError for the client and server
    error statuses, 400 <= status_code < 600. *)
Definition raise_for_status (r : response) : M unit :=
  if (400 <=? status_code r) && (status_code r <? 600)
  then raise (HTTPError (status_code r))
  else mret tt.

(** [response.json()] *)
Definition response_json (r : response) : M pyval :=
  match json_body r with
  | Some v => mret v
  | None => raise JSONDecodeError
  end.

(** ** Helper function to get rates *)

Definition api_url (base_currency : string) : string :=
  "https://open.er-api.com/v6/latest/" +:+ upper base_currency.

Definition get_exchange_rate (base_currency target_currency : string)
  : M (pyval * pyval) :=
  let url := api_url base_currency in
  try_except
    (logging_info
       "Requesting rate from open.er-api.com: base=%s target=%s url=%s"
       [PyStr base_currency; PyStr target_currency; PyStr url];;
     response ← requests_get url 10;
     raise_for_status response;;
     data ← response_json response;
     result ← py_get data "result" PyNone;
     if py_ne_str result "success" then
       logging_error "API result not success. Full response: %s" [data];;
       mret (PyNone, PyNone)
     else
       rates ← py_get data "rates" (PyDict ∅);
       rate ← py_get rates (upper target_currency) PyNone;
       if is_None rate then
         logging_error
           "Target currency %s not found in API response. Response: %s"
           [PyStr target_currency; data];;
         mret (PyNone, PyNone)
       else
         api_time_str ← py_get data "time_last_update_utc" (PyStr "Unknown");
         logging_info "Rate received: 1 %s = %f %s (API time: %s)"
           [PyStr base_currency; rate; PyStr target_currency; api_time_str];;
         mret (rate, api_time_str))
    (λ x,
       logging_exception x
         "Error while fetching exchange rate for base=%s target=%s"
         [PyStr base_currency; PyStr target_currency];;
       mret (PyNone, PyNone)).

(** ** Floats and their formatting *)

(** The floats of the script are the binary64 values in canonical form
    ([valid_binary 53 1024]), on which [SFmul 53 1024] is the IEEE-754
    product; [b64 m e] is the float nearest to m * 2^e. *)
Definition b64 (m e : Z) : spec_float := binary_normalize 53 1024 m e false.

(** [float(z)] for an int: the nearest float, OverflowError beyond the
    range of floats. *)
Definition float_of_int (z : Z) : M spec_float :=
  match b64 z 0 with
  | S754_infinity _ => raise OverflowError
  | f => mret f
  end.

(** [a * v] for a float [a]: an int or bool operand is converted to
    float first, any other operand is a TypeError. *)
Definition float_mul (a : spec_float) (v : pyval) : M spec_float :=
  match v with
  | PyFloat f => mret (SFmul 53 1024 a f)
  | PyInt z => f ← float_of_int z; mret (SFmul 53 1024 a f)
  | PyBool b => mret (SFmul 53 1024 a (b64 (if b then 1 else 0) 0))
  | _ => raise TypeError
  end.

(** [a <= 0] for a float [a] *)
Definition float_le_0 (a : spec_float) : bool := SFleb a (S754_zero false).

Definition digit (d : Z) : ascii := ascii_of_nat (48 + Z.to_nat d).

(** The decimal numeral of a natural number, without leading zeros. *)
Definition decimal (n : Z) : string :=
  NilEmpty.string_of_uint (N.to_uint (Z.to_N n)).

(** The [p] low-order decimal digits of [n], zero-padded. *)
Fixpoint fixed_digits (p : nat) (n : Z) : string :=
  match p with
  | O => ""
  | S p' => fixed_digits p' (n / 10) +:+ String (digit (n mod 10)) ""
  end.

(** num / den rounded to the nearest integer, ties to even. *)
Definition round_half_even (num den : Z) : Z :=
  let q := num / den in
  match 2 * (num mod den) ?= den with
  | Lt => q
  | Gt => q + 1
  | Eq => if Z.even q then q else q + 1
  end.

(** m * 2^e * 10^p rounded to an integer: the digits printf keeps. *)
Definition scaled (p : nat) (m : positive) (e : Z) : Z :=
  if 0 <=? e then Zpos m * 2 ^ e * 10 ^ Z.of_nat p
  else round_half_even (Zpos m * 10 ^ Z.of_nat p) (2 ^ (- e)).

(** Commas between groups of three digits, on the reversed numeral. *)
Fixpoint group3_rev (l : list ascii) : list ascii :=
  match l with
  | a :: b :: c :: ((_ :: _) as rest) =>
      a :: b :: c :: ","%char :: group3_rev rest
  | _ => l
  end.

Definition group_thousands (s : string) : string :=
  string_of_list_ascii (rev (group3_rev (rev (list_ascii_of_string s)))).

Definition sign_str (s : bool) : string := if s then "-" else "".

(** The digits of a fixed-point numeral whose value times 10^p is [n]. *)
Definition fixed_point (grouping : bool) (p : nat) (n : Z) : string :=
  let ip := decimal (n / 10 ^ Z.of_nat p) in
  (if grouping then group_thousands ip else ip)
  +:+ match p with
      | O => ""
      | S _ => "." +:+ fixed_digits p (n mod 10 ^ Z.of_nat p)
      end.

(** [format(x, ".pf")], and [format(x, ",.pf")] when [grouping]. *)
Definition format_f (grouping : bool) (p : nat) (x : spec_float) : string :=
  match x with
  | S754_nan => "nan"
  | S754_infinity s => sign_str s +:+ "inf"
  | S754_zero s => sign_str s +:+ fixed_point grouping p 0
  | S754_finite s m e => sign_str s +:+ fixed_point grouping p (scaled p m e)
  end.

(** [format(v, ".pf")] for any value: ints and bools are converted to
    float, a str rejects the format code, other types have no format. *)
Definition py_format_f (p : nat) (v : pyval) : M string :=
  match v with
  | PyFloat f => mret (format_f false p f)
  | PyInt z => f ← float_of_int z; mret (format_f false p f)
  | PyBool b => mret (format_f false p (b64 (if b then 1 else 0) 0))
  | PyStr _ => raise ValueError
  | _ => raise TypeError
  end.

(** ** Streamlit calls *)

Definition render (e : element) : M unit := modify (add_element e).

Definition st_title (body : string) : M unit := render (StTitle body).
Definition st_write (body : string) : M unit := render (StWrite body).
Definition st_subheader (body : string) : M unit := render (StSubheader body).
Definition st_spinner (text : string) : M unit := render (StSpinner text).
Definition st_warning (body : string) : M unit := render (StWarning body).
Definition st_error (body : string) : M unit := render (StError body).
Definition st_success (body : string) : M unit := render (StSuccess body).
Definition st_metric (label value delta : string) : M unit :=
  render (StMetric label value delta).

(** The caption interpolates the provider's time, of any type, and the
    local time into a fixed text; the element keeps the two values. *)
Definition st_caption (api_time : pyval) (local_time : string) : M unit :=
  render (StCaption api_time local_time).

(** The widgets return what the user chose on the page.  A selectbox
    with a [key] also keeps its value under that key in Streamlit's own
    part of the session state, which is not modelled. *)
Definition st_selectbox (label : string) (options : list string) (index : nat)
    (key : option string) : M string :=
  e ← ask; mret (selectbox_value e label).

Definition st_number_input (label : string) (min_value value step : spec_float)
  : M spec_float :=
  e ← ask; mret (number_input_value e label).

Definition st_button (label : string) : M bool :=
  e ← ask; mret (button_clicked e label).

(** [datetime.now().strftime("%Y-%m-%d %H:%M:%S")] *)
Definition now_strftime : M string := e ← ask; mret (local_now e).

(** [key not in st.session_state] *)
Definition session_lacks (key : string) : M bool :=
  s ← get; mret (bool_decide (session_state s !! key = None)).

(** [st.session_state.key = value] *)
Definition session_set (key value : string) : M unit :=
  modify (set_session key value).

(** [st.session_state.key] *)
Definition session_get (key : string) : M string :=
  s ← get;
  match session_state s !! key with
  | Some v => mret v
  | None => raise AttributeError
  end.

(** [l.index(x)] *)
Fixpoint index_of (l : list string) (x : string) : option nat :=
  match l with
  | [] => None
  | y :: l' => if String.eqb y x then Some O else S <$> index_of l' x
  end.

Definition list_index (l : list string) (x : string) : M nat :=
  match index_of l x with
  | Some i => mret i
  | None => raise ValueError
  end.

(** [d[key]] for a dict kept in insertion order *)
Fixpoint assoc {V} (d : list (string * V)) (key : string) : option V :=
  match d with
  | [] => None
  | (k, v) :: d' => if String.eqb k key then Some v else assoc d' key
  end.

Definition dict_getitem {V} (d : list (string * V)) (key : string) : M V :=
  match assoc d key with
  | Some v => mret v
  | None => raise (KeyError key)
  end.

(** ** Streamlit UI *)

Definition currency_list : list string :=
  ["GBP"; "USD"; "EUR"; "INR"; "AUD"; "CAD"; "JPY"; "CHF"; "CNY"].

Definition preset_map : list (string * (option string * option string)) :=
  [ ("Custom", (None, None));
    ("GBP → USD (default)", (Some "GBP", Some "USD"));
    ("USD → GBP", (Some "USD", Some "GBP"));
    ("EUR → GBP", (Some "EUR", Some "GBP"));
    ("GBP → INR", (Some "GBP", Some "INR"));
    ("EUR → USD", (Some "EUR", Some "USD")) ].

(** Lines 101-104: the defaults of the session state. *)
Definition init_defaults : M unit :=
  (b ← session_lacks "from_currency";
   when b (session_set "from_currency" "GBP"));;
  b ← session_lacks "to_currency";
  when b (session_set "to_currency" "USD").

(** Lines 123-135: the preset selector and its effect. *)
Definition quick_presets : M unit :=
  st_subheader "Quick presets";;
  preset_label ← st_selectbox "Choose a preset pair (or Custom):"
                   (preset_map.*1) 1 None;
  '(base, target) ← dict_getitem preset_map preset_label;
  match base, target with
  | Some base, Some target =>
      session_set "from_currency" base;;
      session_set "to_currency" target
  | _, _ => mret tt
  end.

(** Lines 167-195: the Convert button and its handler. *)
Definition convert_button (from_currency to_currency : string)
    (amount : spec_float) : M unit :=
  clicked ← st_button "Convert";
  when clicked
    (if String.eqb from_currency to_currency then
       st_warning "Please choose two different currencies."
     else if float_le_0 amount then
       st_warning "Please enter an amount greater than zero."
     else
       '(rate, api_time) ←
         (st_spinner "Fetching latest exchange rate...";;
          get_exchange_rate from_currency to_currency);
       if is_None rate then
         st_error "Unable to fetch exchange rate. Please try again later."
       else
         converted ← float_mul amount rate;
         st_success "Conversion successful!";;
         rate_str ← py_format_f 4 rate;
         st_metric
           (format_f false 2 amount +:+ " " +:+ from_currency +:+ " in "
              +:+ to_currency)
           (format_f true 4 converted +:+ " " +:+ to_currency)
           ("1 " +:+ from_currency +:+ " = " +:+ rate_str +:+ " "
              +:+ to_currency);;
         local_time ← now_strftime;
         st_caption api_time local_time).

(** Lines 140-195: the currency selectors, the amount and the button. *)
Definition converter : M unit :=
  st_subheader "Convert";;
  from_index ← (v ← session_get "from_currency"; list_index currency_list v);
  from_currency ← st_selectbox "From currency" currency_list from_index
                    (Some "from_currency_select");
  to_index ← (v ← session_get "to_currency"; list_index currency_list v);
  to_currency ← st_selectbox "To currency" currency_list to_index
                  (Some "to_currency_select");
  amount ← st_number_input "Amount to convert"
             (S754_zero false) (b64 1 0) (b64 1 0);
  convert_button from_currency to_currency amount.

(** The whole script, one run per interaction.  [logging.basicConfig],
    [st.set_page_config] and the two columns configure the log and the
    layout and have no part in what follows. *)
Definition script : M unit :=
  st_title "💱 Live Currency Converter";;
  st_write ("Convert between currencies using the latest exchange rates."
            +:+ String "010" "Example: **GBP → USD** or **EUR → INR**.");;
  init_defaults;;
  quick_presets;;
  converter.

(** ** What the claims speak of *)

(** The failure signal of [get_exchange_rate]. *)
Definition Failure : pyval * pyval := (PyNone, PyNone).

(** The value a run of [get_exchange_rate] returns, and the state it
    leaves. *)
Definition fetch (e : env) (s : state) (base target : string)
  : result (pyval * pyval) * state :=
  run (get_exchange_rate base target) e s.

(** The provider answers the request for [base] with [r]. *)
Definition answers (e : env) (base : string) (r : response) : Prop :=
  network e (api_url base) 10 = Responds r.

(** The statuses [raise_for_status] rejects. *)
Definition error_status (status : Z) : Prop := 400 ≤ status < 600.

(** A network-level failure as [get_exchange_rate] sees it: the request
    raised, or the status is one [raise_for_status] rejects. *)
Definition network_failure (o : http_outcome) : Prop :=
  match o with
  | Fails _ => True
  | Responds r => error_status (status_code r)
  end.

(** A positive finite number. *)
Definition positive_finite (v : pyval) : bool :=
  match v with
  | PyInt z => 0 <? z
  | PyFloat (S754_finite false _ _) => true
  | _ => false
  end.

(** The float a rate stands for in [amount * rate] and in [.4f]: a float
    itself, an int within the range of floats, or a bool (True is 1).
    For any other rate the conversion raises. *)
Definition float_of (v : pyval) : option spec_float :=
  match v with
  | PyFloat f => Some f
  | PyInt z =>
      match b64 z 0 with
      | S754_infinity _ => None
      | f => Some f
      end
  | PyBool b => Some (b64 (if b then 1 else 0) 0)
  | _ => None
  end.

Definition is_finite (x : spec_float) : bool :=
  match x with
  | S754_zero _ | S754_finite _ _ _ => true
  | _ => false
  end.

Fixpoint all_chars (P : ascii → bool) (s : string) : bool :=
  match s with
  | EmptyString => true
  | String c s' => P c && all_chars P s'
  end.

Definition is_digit (c : ascii) : bool :=
  let n := nat_of_ascii c in (Nat.leb 48 n && Nat.leb n 57)%bool.

Definition not_point (c : ascii) : bool := negb (Ascii.eqb c ".").

(** [str] is a numeral with exactly [p] decimal places: some text
    without a point, a point, and [p] digits. *)
Definition has_decimals (p : nat) (str : string) : Prop :=
  ∃ ip fp, str = ip +:+ "." +:+ fp
           ∧ String.length fp = p
           ∧ all_chars is_digit fp = true
           ∧ all_chars not_point ip = true.

(** The label of the preset selector. *)
Definition preset_selector : string := "Choose a preset pair (or Custom):".

(** A computation that leaves the session state alone. *)
Definition keeps_session {A} (m : M A) : Prop :=
  ∀ e s, session_state (run m e s).2 = session_state s.

(** ** Sample data *)

(** The answer the source gives as an example, for base GBP. *)
Definition sample_rates : gmap string pyval :=
  <["USD" := PyFloat (b64 5 (-2))]> (<["EUR" := PyFloat (b64 919 (-10))]> ∅).

Definition sample_payload : gmap string pyval :=
  <["result" := PyStr "success"]>
    (<["time_last_update_utc" := PyStr "Fri, 02 Apr 2020 00:06:37 +0000"]>
       (<["base_code" := PyStr "GBP"]>
          (<["rates" := PyDict sample_rates]> ∅))).

(** The same answer without its time_last_update_utc field. *)
Definition untimed_payload : gmap string pyval :=
  delete "time_last_update_utc" sample_payload.

(** A provider that reports a failure. *)
Definition error_payload : gmap string pyval :=
  <["result" := PyStr "error"]>
    (<["error-type" := PyStr "unsupported-code"]>
       (<["rates" := PyDict sample_rates]> ∅)).

(** A provider whose rate is not positive. *)
Definition negative_payload : gmap string pyval :=
  <["result" := PyStr "success"]>
    (<["rates" := PyDict (<["USD" := PyInt (-1)]> ∅)]> ∅).

(** A run in which every request meets the outcome [o], the user chose
    the preset [preset] and the currencies [from_c] and [to_c], typed
    [amount] and clicked Convert or not. *)
Definition sample_env (o : http_outcome) (preset from_c to_c : string)
    (amount : spec_float) (clicked : bool) : env :=
  Env (λ _ _, o)
      (λ label,
         if String.eqb label "From currency" then from_c
         else if String.eqb label "To currency" then to_c
         else preset)
      (λ _, amount) (λ _, clicked) "2026-01-01 12:00:00".

(** A provider that always answers [status] with the JSON object [d]. *)
Definition provider (status : Z) (d : gmap string pyval) : env :=
  sample_env (Responds (Response status (Some (PyDict d))))
    "Custom" "GBP" "USD" (b64 10 0) true.

(** A provider that does not answer within the timeout. *)
Definition timed_out : env :=
  sample_env (Fails Timeout) "Custom" "GBP" "USD" (b64 10 0) true.

(** A network that is down, with the preset [preset] chosen. *)
Definition offline (preset : string) : env :=
  sample_env (Fails ConnectionError) preset "GBP" "USD" (b64 10 0) false.

(** A provider whose rate is 1e10. *)
Definition steep_payload : gmap string pyval :=
  <["result" := PyStr "success"]>
    (<["rates" := PyDict (<["USD" := PyFloat (b64 (10 ^ 10) 0)]> ∅)]> ∅).

(** The keys under which Streamlit keeps the two keyed selectboxes. *)
Definition widget_keys : list string :=
  ["from_currency_select"; "to_currency_select"].

Definition fresh : state := State [] [] ∅ [].

(** A session in which the user had chosen USD and JPY. *)
Definition chosen : state :=
  State [] [] (<["from_currency" := "USD"]> (<["to_currency" := "JPY"]> ∅)) [].

(** ** The records of the log *)

(** [msg % args] for the templates of the script, which use [%s] and
    [%f] only: it succeeds when every specifier finds an argument, a
    [%f] finds a number, and no argument is left over.  [%s] takes any
    value. *)
Fixpoint format_ok (msg : string) (args : list pyval) {struct msg} : bool :=
  match msg with
  | EmptyString => match args with [] => true | _ => false end
  | String c rest =>
      if Ascii.eqb c "%" then
        match rest, args with
        | String d rest', a :: args' =>
            if Ascii.eqb d "s" then format_ok rest' args'
            else if Ascii.eqb d "f"
                 then bool_decide (is_Some (float_of a)) && format_ok rest' args'
                 else false
        | _, _ => false
        end
      else format_ok rest args
  end.

(** Whether the handler writes a line for the record: a record without
    arguments is written as it is, any other when its template formats
    with its arguments; otherwise the handler reports the error on
    stderr and the file gets nothing. *)
Definition formats (r : log_record) : bool :=
  match log_args r with
  | [] => true
  | args => format_ok (log_msg r) args
  end.

(** The lines of currency_converter.log: the records that format. *)
Definition written (s : state) : list log_record :=
  filter (λ r, formats r = true) (log_file s).

(** The record written before the request is sent. *)
Definition request_record (base target : string) : log_record :=
  LogRecord INFO
    "Requesting rate from open.er-api.com: base=%s target=%s url=%s"
    [PyStr base; PyStr target; PyStr (api_url base)] None.

(** The record written when a rate was found. *)
Definition received_record (base target : string) (rate time : pyval)
  : log_record :=
  LogRecord INFO "Rate received: 1 %s = %f %s (API time: %s)"
    [PyStr base; rate; PyStr target; time] None.

(** The record [logging.exception] writes in the except clause. *)
Definition exception_record (base target : string) (x : exception)
  : log_record :=
  LogRecord ERROR "Error while fetching exchange rate for base=%s target=%s"
    [PyStr base; PyStr target] (Some x).

(** The record written when the target code has no rate. *)
Definition not_found_record (target : string) (data : pyval) : log_record :=
  LogRecord ERROR "Target currency %s not found in API response. Response: %s"
    [PyStr target; data] None.

Definition is_dict (v : pyval) : bool :=
  match v with PyDict _ => true | _ => false end.

(** The state a call leaves when its outcome record is [outcome]. *)
Definition after_call (s : state) (base target : string) (outcome : log_record)
  : state :=
  State (requests_sent s ++ [(api_url base, 10)])
        (log_file s ++ [request_record base target; outcome])
        (session_state s) (page s).

(** A value that is no number: multiplying a float by it is a TypeError. *)
Definition not_a_number (v : pyval) : bool :=
  match v with
  | PyStr _ | PyList _ | PyDict _ => true
  | _ => false
  end.

(** A computation that, in the run [e], sends no request and logs
    nothing. *)
Definition quiet (e : env) {A} (m : M A) : Prop :=
  ∀ s, requests_sent (run m e s).2 = requests_sent s
       ∧ log_file (run m e s).2 = log_file s.

(** The selection stored under [key], if any, is a listed currency. *)
Definition listed_selection (ss : gmap string string) (key : string) : Prop :=
  ∀ v, ss !! key = Some v → v ∈ currency_list.

Definition good_session (ss : gmap string string) : Prop :=
  listed_selection ss "from_currency" ∧ listed_selection ss "to_currency".

(** The preset selector returned one of its options. *)
Definition valid_preset (e : env) : Prop :=
  selectbox_value e preset_selector ∈ preset_map.*1.

(** The state after one run of the script per interaction of [es]. *)
Definition runs (es : list env) (s : state) : state :=
  foldl (λ s e, (run script e s).2) s es.

(** ** More sample data *)

(** An answer whose body is not JSON. *)
Definition garbled : env :=
  sample_env (Responds (Response 200 None)) "Custom" "GBP" "USD" (b64 10 0) true.

(** An answer whose JSON is an array. *)
Definition listed : env :=
  sample_env (Responds (Response 200 (Some (PyList [PyInt 1]))))
    "Custom" "GBP" "USD" (b64 10 0) true.

(** An answer whose rate for USD is null. *)
Definition null_payload : gmap string pyval :=
  <["result" := PyStr "success"]>
    (<["rates" := PyDict (<["USD" := PyNone]> ∅)]> ∅).

(** An answer whose rate for USD is a str. *)
Definition quoted_payload : gmap string pyval :=
  <["result" := PyStr "success"]>
    (<["rates" := PyDict (<["USD" := PyStr "1.25"]> ∅)]> ∅).

(** An answer whose rate for USD is an int beyond the range of floats. *)
Definition huge_payload : gmap string pyval :=
  <["result" := PyStr "success"]>
    (<["rates" := PyDict (<["USD" := PyInt (2 ^ 1024)]> ∅)]> ∅).

(** A session that holds a key of its own beside one selection. *)
Definition themed : state :=
  State [] [] (<["theme" := "dark"]> (<["from_currency" := "CHF"]> ∅)) [].

(** ** Simplification of runs *)

Ltac run_monad :=
  cbv [fetch run get_exchange_rate try_except mbind M_bind mret M_ret raise
       modify ask get when requests_get raise_for_status response_json py_get
       logging_info logging_error logging_exception
       add_log add_request].

Lemma raise_for_status_ok status :
  ¬ error_status status → (400 <=? status) && (status <? 600) = false.
Proof. unfold error_status. intros H. apply andb_false_iff. lia. Qed.

Lemma raise_for_status_error status :
  error_status status → (400 <=? status) && (status <? 600) = true.
Proof. unfold error_status. intros H. apply andb_true_iff. lia. Qed.

(** C1: for every currency pair (valid and distinct or not) and every
    successful provider response whose rate table holds a rate under the
    uppercased target code, [get_exchange_rate] returns that rate as it
    is in the response and the response's time_last_update_utc
    unchanged. *)
Theorem get_exchange_rate_returns_rate_and_time
    e s base target r d rates rate time :
  answers e base r →
  ¬ error_status (status_code r) →
  json_body r = Some (PyDict d) →
  d !! "result" = Some (PyStr "success") →
  d !! "rates" = Some (PyDict rates) →
  rates !! upper target = Some rate →
  rate ≠ PyNone →
  d !! "time_last_update_utc" = Some time →
  (fetch e s base target).1 = Ok (rate, time).
Proof.
  intros Hnet Hst Hjson Hres Hrates Hrate Hnone Htime.
  run_monad. cbn. rewrite Hnet. rewrite (raise_for_status_ok _ Hst).
  rewrite Hjson, Hres. cbn. rewrite Hrates. cbn. rewrite Hrate. cbn.
  destruct rate; try congruence; cbn; rewrite Htime; reflexivity.
Qed.

Lemma get_exchange_rate_returns_rate_and_time_witness :
  (fetch (provider 200 sample_payload) fresh "gbp" "usd").1
  = Ok (PyFloat (b64 5 (-2)), PyStr "Fri, 02 Apr 2020 00:06:37 +0000").
Proof.
  apply (get_exchange_rate_returns_rate_and_time
           (provider 200 sample_payload) fresh "gbp" "usd"
           (Response 200 (Some (PyDict sample_payload)))
           sample_payload sample_rates).
  - reflexivity.
  - unfold error_status; simpl; lia.
  - reflexivity.
  - reflexivity.
  - reflexivity.
  - reflexivity.
  - discriminate.
  - reflexivity.
Defined.

(** Every run of [get_exchange_rate] returns a value, the same from
    every state, sends the one request, adds log records and leaves the
    rest of the state alone. *)
Lemma fetch_frame e base target :
  ∃ v logs, logs ≠ [] ∧ ∀ s,
    fetch e s base target =
      (Ok v, State (requests_sent s ++ [(api_url base, 10)])
                   (log_file s ++ logs) (session_state s) (page s)).
Proof.
  run_monad. cbn.
  destruct (network e (api_url base) 10) as [x|[status body]]; cbn.
  { eexists _, [_; _]. split; [discriminate|]. intros s.
    by rewrite <- ?app_assoc. }
  destruct ((400 <=? status) && (status <? 600)); cbn.
  { eexists _, [_; _]. split; [discriminate|]. intros s.
    by rewrite <- ?app_assoc. }
  repeat (case_match; cbn); simplify_eq;
    first [ eexists _, [_; _]; split; [discriminate|]; intros ?; cbn;
            by rewrite <- ?app_assoc
          | eexists _, [_; _; _]; split; [discriminate|]; intros ?; cbn;
            by rewrite <- ?app_assoc ].
Qed.

Lemma py_ne_str_false v s : py_ne_str v s = false → v = PyStr s.
Proof.
  destruct v; cbn; try discriminate.
  intros H. apply negb_false_iff, String.eqb_eq in H. by subst.
Qed.

Lemma py_ne_str_true v s : v ≠ PyStr s → py_ne_str v s = true.
Proof.
  destruct v; cbn; try reflexivity.
  intros H. apply negb_true_iff, String.eqb_neq. congruence.
Qed.

Lemma default_None_inv (o : option pyval) v :
  default PyNone o = v → v ≠ PyNone → o = Some v.
Proof. destruct o; cbn; congruence. Qed.

Lemma error_status_false status :
  (400 <=? status) && (status <? 600) = false → ¬ error_status status.
Proof. unfold error_status. intros H. apply andb_false_iff in H. lia. Qed.

(** What a successful run of [get_exchange_rate] tells about the answer
    of the provider. *)
Lemma fetch_success_inv e s base target rate time :
  (fetch e s base target).1 = Ok (rate, time) →
  rate ≠ PyNone →
  ∃ r d rates,
    answers e base r ∧ ¬ error_status (status_code r) ∧
    json_body r = Some (PyDict d) ∧
    d !! "result" = Some (PyStr "success") ∧
    d !! "rates" = Some (PyDict rates) ∧
    rates !! upper target = Some rate ∧
    time = default (PyStr "Unknown") (d !! "time_last_update_utc").
Proof.
  unfold answers. run_monad. cbn.
  destruct (network e (api_url base) 10) as [x|[status body]]; cbn;
    [intros [= <- <-]; congruence|].
  destruct ((400 <=? status) && (status <? 600)) eqn:Hst; cbn;
    [intros [= <- <-]; congruence|].
  apply error_status_false in Hst.
  destruct body as [[| | | | | |d]|]; cbn;
    try (intros [= <- <-]; congruence).
  destruct (py_ne_str _ _) eqn:Hres; cbn; [intros [= <- <-]; congruence|].
  apply py_ne_str_false in Hres.
  apply default_None_inv in Hres; [|discriminate].
  destruct (d !! "rates") as [[| | | | | |rates]|] eqn:Hrates; cbn;
    try (intros [= <- <-]; congruence).
  - destruct (is_None _) eqn:Hn; cbn; [intros [= <- <-]; congruence|].
    intros [= <- <-] Hnone.
    exists (Response status (Some (PyDict d))), d, rates.
    repeat split; try done.
    by apply default_None_inv.
  - rewrite lookup_empty. cbn. intros [= <- <-]; congruence.
Qed.

(** C2, as stated, fails: a provider that answers result "success" with
    the rate -1 makes [get_exchange_rate] return the non-None rate -1,
    which is not a positive number. *)
Lemma success_rate_need_not_be_positive :
  (fetch (provider 200 negative_payload) fresh "GBP" "USD").1
  = Ok (PyInt (-1), PyStr "Unknown")
  ∧ PyInt (-1) ≠ PyNone
  ∧ positive_finite (PyInt (-1)) = false.
Proof. split; [reflexivity | split; [discriminate | reflexivity]]. Qed.

(** C2, amended: whenever [get_exchange_rate] returns a non-None rate,
    the request was answered with a status [raise_for_status] accepts and
    a JSON object whose result is "success", and the returned rate is the
    value that object's rates table holds under the uppercased target
    code; nothing checks that it is positive, finite or a number. *)
Theorem success_rate_is_table_entry e s base target rate time :
  (fetch e s base target).1 = Ok (rate, time) →
  rate ≠ PyNone →
  ∃ r d rates,
    answers e base r ∧ ¬ error_status (status_code r) ∧
    json_body r = Some (PyDict d) ∧
    d !! "result" = Some (PyStr "success") ∧
    d !! "rates" = Some (PyDict rates) ∧
    rates !! upper target = Some rate.
Proof.
  intros Hrun Hnone.
  destruct (fetch_success_inv _ _ _ _ _ _ Hrun Hnone)
    as (r & d & rates & ? & ? & ? & ? & ? & ? & _).
  by exists r, d, rates.
Qed.

Lemma success_rate_is_table_entry_witness :
  ∃ r d rates,
    answers (provider 200 negative_payload) "GBP" r ∧
    ¬ error_status (status_code r) ∧
    json_body r = Some (PyDict d) ∧
    d !! "result" = Some (PyStr "success") ∧
    d !! "rates" = Some (PyDict rates) ∧
    rates !! upper "USD" = Some (PyInt (-1)).
Proof.
  apply (success_rate_is_table_entry (provider 200 negative_payload) fresh
           "GBP" "USD" (PyInt (-1)) (PyStr "Unknown")).
  - reflexivity.
  - discriminate.
Defined.

(** C3: when the result field of the provider's JSON object is anything
    but the str "success" (or is missing), [get_exchange_rate] returns
    (None, None), whatever the status and the rest of the object. *)
Theorem result_not_success_is_failure e s base target r d :
  answers e base r →
  json_body r = Some (PyDict d) →
  d !! "result" ≠ Some (PyStr "success") →
  (fetch e s base target).1 = Ok Failure.
Proof.
  unfold answers. intros Hnet Hjson Hres. run_monad. cbn. rewrite Hnet.
  destruct ((400 <=? status_code r) && (status_code r <? 600)); cbn;
    [reflexivity|].
  rewrite Hjson. cbn. rewrite py_ne_str_true; [reflexivity|].
  intros Heq. apply default_None_inv in Heq; [done|discriminate].
Qed.

Lemma result_not_success_is_failure_witness :
  (fetch (provider 200 error_payload) fresh "GBP" "USD").1 = Ok Failure.
Proof.
  apply (result_not_success_is_failure (provider 200 error_payload) fresh
           "GBP" "USD" (Response 200 (Some (PyDict error_payload)))
           error_payload).
  - reflexivity.
  - reflexivity.
  - discriminate.
Defined.

(** C4: when the provider's JSON object has result "success" and its
    rates table has no entry for the uppercased target code,
    [get_exchange_rate] returns (None, None). *)
Theorem missing_target_is_failure e s base target r d rates :
  answers e base r →
  json_body r = Some (PyDict d) →
  d !! "result" = Some (PyStr "success") →
  d !! "rates" = Some (PyDict rates) →
  rates !! upper target = None →
  (fetch e s base target).1 = Ok Failure.
Proof.
  unfold answers. intros Hnet Hjson Hres Hrates Hrate. run_monad. cbn.
  rewrite Hnet.
  destruct ((400 <=? status_code r) && (status_code r <? 600)); cbn;
    [reflexivity|].
  rewrite Hjson, Hres. cbn. rewrite Hrates. cbn. rewrite Hrate.
  reflexivity.
Qed.

Lemma missing_target_is_failure_witness :
  (fetch (provider 200 sample_payload) fresh "GBP" "jpy").1 = Ok Failure.
Proof.
  apply (missing_target_is_failure (provider 200 sample_payload) fresh
           "GBP" "jpy" (Response 200 (Some (PyDict sample_payload)))
           sample_payload sample_rates); reflexivity.
Defined.

(** C5, as stated, fails for the statuses outside 2xx that
    [raise_for_status] accepts: an answer with status 300 and a good
    JSON object is a success. *)
Lemma non_2xx_status_can_succeed :
  ¬ (200 ≤ 300 < 300)
  ∧ (fetch (provider 300 sample_payload) fresh "GBP" "USD").1
    = Ok (PyFloat (b64 5 (-2)), PyStr "Fri, 02 Apr 2020 00:06:37 +0000").
Proof. split; [lia | reflexivity]. Qed.

(** C5, amended: [get_exchange_rate] never raises, and it returns
    (None, None) whenever the request raises (timeout, DNS or connection
    error) or is answered with a status from 400 to 599. *)
Theorem network_failure_is_failure e s base target :
  (∃ v, (fetch e s base target).1 = Ok v)
  ∧ (network_failure (network e (api_url base) 10) →
     (fetch e s base target).1 = Ok Failure).
Proof.
  split.
  - destruct (fetch_frame e base target) as (v & logs & _ & ->).
    by exists v.
  - run_monad. cbn.
    destruct (network e (api_url base) 10) as [x|r]; cbn; [reflexivity|].
    intros Hst. by rewrite (raise_for_status_error _ Hst).
Qed.

Lemma network_failure_is_failure_witness :
  (∃ v, (fetch timed_out fresh "GBP" "USD").1 = Ok v)
  ∧ (fetch timed_out fresh "GBP" "USD").1 = Ok Failure.
Proof.
  destruct (network_failure_is_failure timed_out fresh "GBP" "USD")
    as [Hv Hf].
  split; [exact Hv | apply Hf; exact I].
Defined.

(** C6: whatever the base code and the answer, [get_exchange_rate] issues
    exactly one GET, with a timeout of 10 seconds, to the endpoint
    template filled with the uppercased base code. *)
Theorem one_get_to_the_endpoint e s base target :
  requests_sent (fetch e s base target).2
  = (requests_sent s
     ++ [("https://open.er-api.com/v6/latest/" +:+ upper base, 10)])%list.
Proof.
  destruct (fetch_frame e base target) as (v & logs & _ & ->).
  reflexivity.
Qed.

(** C10: a successful answer (result "success", target rate present) that
    lacks time_last_update_utc still makes [get_exchange_rate] succeed,
    with the str "Unknown" in place of the time. *)
Theorem missing_time_is_Unknown e s base target r d rates rate :
  answers e base r →
  ¬ error_status (status_code r) →
  json_body r = Some (PyDict d) →
  d !! "result" = Some (PyStr "success") →
  d !! "rates" = Some (PyDict rates) →
  rates !! upper target = Some rate →
  rate ≠ PyNone →
  d !! "time_last_update_utc" = None →
  (fetch e s base target).1 = Ok (rate, PyStr "Unknown").
Proof.
  intros Hnet Hst Hjson Hres Hrates Hrate Hnone Htime.
  run_monad. cbn. rewrite Hnet. rewrite (raise_for_status_ok _ Hst).
  rewrite Hjson, Hres. cbn. rewrite Hrates. cbn. rewrite Hrate. cbn.
  destruct rate; try congruence; cbn; rewrite Htime; reflexivity.
Qed.

Lemma missing_time_is_Unknown_witness :
  (fetch (provider 200 untimed_payload) fresh "gbp" "usd").1
  = Ok (PyFloat (b64 5 (-2)), PyStr "Unknown").
Proof.
  apply (missing_time_is_Unknown
           (provider 200 untimed_payload) fresh "gbp" "usd"
           (Response 200 (Some (PyDict untimed_payload)))
           untimed_payload sample_rates).
  - reflexivity.
  - unfold error_status; simpl; lia.
  - reflexivity.
  - reflexivity.
  - reflexivity.
  - reflexivity.
  - discriminate.
  - reflexivity.
Defined.

(** ** Formatting *)

Section Strings.
Variable P : ascii → bool.

Lemma all_chars_app s1 s2 :
  all_chars P (s1 +:+ s2) = all_chars P s1 && all_chars P s2.
Proof.
  induction s1 as [|c s1 IH]; [reflexivity|].
  change (String c s1 +:+ s2) with (String c (s1 +:+ s2)).
  cbn [all_chars]. rewrite IH. apply andb_assoc.
Qed.

Lemma all_chars_of_list l :
  all_chars P (string_of_list_ascii l) = forallb P l.
Proof. induction l as [|c l IH]; cbn; [reflexivity|]. by rewrite IH. Qed.

Lemma all_chars_to_list s :
  forallb P (list_ascii_of_string s) = all_chars P s.
Proof. induction s as [|c s IH]; cbn; [reflexivity|]. by rewrite IH. Qed.

Lemma forallb_rev (l : list ascii) : forallb P (rev l) = forallb P l.
Proof.
  induction l as [|c l IH]; [reflexivity|].
  cbn. rewrite forallb_app, IH. cbn. rewrite andb_true_r. apply andb_comm.
Qed.

Lemma group3_rev_all l :
  P "," = true → forallb P l = true → forallb P (group3_rev l) = true.
Proof.
  intros Hc. remember (length l) as n eqn:Hn.
  revert l Hn. induction (lt_wf n) as [n _ IH]. intros l -> Hl.
  destruct l as [|a [|b [|c [|d rest]]]]; try exact Hl.
  change (group3_rev (a :: b :: c :: d :: rest))
    with (a :: b :: c :: ","%char :: group3_rev (d :: rest)).
  cbn [forallb] in Hl.
  apply andb_true_iff in Hl as [Ha Hl].
  apply andb_true_iff in Hl as [Hb Hl].
  apply andb_true_iff in Hl as [Hc' Hl].
  cbn [forallb]. rewrite Ha, Hb, Hc', Hc. cbn [andb].
  apply (IH (length (d :: rest))); [cbn; lia|reflexivity|exact Hl].
Qed.

Lemma group_thousands_all s :
  P "," = true → all_chars P s = true → all_chars P (group_thousands s) = true.
Proof.
  intros Hc Hs. unfold group_thousands.
  rewrite all_chars_of_list, forallb_rev. apply group3_rev_all; [done|].
  by rewrite forallb_rev, all_chars_to_list.
Qed.
End Strings.

Lemma all_chars_impl (P Q : ascii → bool) s :
  (∀ c, P c = true → Q c = true) →
  all_chars P s = true → all_chars Q s = true.
Proof.
  intros HPQ. induction s as [|c s IH]; [done|]. cbn.
  intros [Hc Hs]%andb_true_iff. rewrite (HPQ _ Hc). cbn. by apply IH.
Qed.

Lemma length_append s1 s2 :
  String.length (s1 +:+ s2) = (String.length s1 + String.length s2)%nat.
Proof.
  induction s1 as [|c s1 IH]; [reflexivity|].
  change (String c s1 +:+ s2) with (String c (s1 +:+ s2)). cbn. by rewrite IH.
Qed.

Lemma app_assoc_str s1 s2 s3 : (s1 +:+ s2) +:+ s3 = s1 +:+ s2 +:+ s3.
Proof.
  induction s1 as [|c s1 IH]; [reflexivity|].
  change (String c s1 +:+ s2) with (String c (s1 +:+ s2)).
  change (String c (s1 +:+ s2) +:+ s3) with (String c ((s1 +:+ s2) +:+ s3)).
  by rewrite IH.
Qed.

Lemma digit_is_digit d : 0 ≤ d < 10 → is_digit (digit d) = true.
Proof.
  intros H. assert (Hd : d ∈ [0; 1; 2; 3; 4; 5; 6; 7; 8; 9]).
  { rewrite !elem_of_cons. lia. }
  rewrite !elem_of_cons, elem_of_nil in Hd.
  destruct_or!; subst; done.
Qed.

Lemma is_digit_not_point c : is_digit c = true → not_point c = true.
Proof. by destruct c as [[] [] [] [] [] [] [] []]. Qed.

Lemma fixed_digits_length p n : String.length (fixed_digits p n) = p.
Proof.
  revert n. induction p as [|p IH]; intros n; [reflexivity|].
  cbn [fixed_digits]. rewrite length_append, IH. cbn. lia.
Qed.

Lemma fixed_digits_digits p n : all_chars is_digit (fixed_digits p n) = true.
Proof.
  revert n. induction p as [|p IH]; intros n; [reflexivity|].
  cbn [fixed_digits]. rewrite all_chars_app, IH. cbn [all_chars].
  rewrite digit_is_digit; [reflexivity|]. apply Z.mod_pos_bound. lia.
Qed.

Lemma string_of_uint_digits d :
  all_chars is_digit (NilEmpty.string_of_uint d) = true.
Proof. induction d; cbn; done. Qed.

Lemma integer_part_no_point (grouping : bool) n :
  all_chars not_point
    (if grouping then group_thousands (decimal n) else decimal n) = true.
Proof.
  assert (Hd : all_chars not_point (decimal n) = true).
  { apply (all_chars_impl is_digit); [apply is_digit_not_point|].
    apply string_of_uint_digits. }
  destruct grouping; [|done]. by apply group_thousands_all.
Qed.

Lemma fixed_point_decimals grouping p n sign :
  has_decimals (S p) (sign_str sign +:+ fixed_point grouping (S p) n).
Proof.
  unfold fixed_point.
  eexists (sign_str sign +:+ _), _. split; [|split; [|split]].
  - rewrite app_assoc_str. reflexivity.
  - apply fixed_digits_length.
  - apply fixed_digits_digits.
  - rewrite all_chars_app, integer_part_no_point. by destruct sign.
Qed.

(** Every finite float printed with [p] > 0 places has exactly [p]
    decimal places. *)
Lemma format_f_decimals grouping p x :
  is_finite x = true → has_decimals (S p) (format_f grouping (S p) x).
Proof.
  destruct x; try discriminate; intros _; apply fixed_point_decimals.
Qed.

(** ** The conversion page *)

Ltac run_page :=
  cbv [run convert_button when mbind M_bind mret M_ret raise modify ask get
       st_button st_warning st_error st_success st_spinner st_metric
       st_caption st_title st_write st_subheader st_selectbox
       st_number_input now_strftime render session_lacks session_set session_get list_index
       dict_getitem add_element set_session].

(** A call of [get_exchange_rate] shows in the requests and in the log. *)
Lemma fetch_leaves_trace e s base target :
  requests_sent (fetch e s base target).2 ≠ requests_sent s
  ∧ log_file (fetch e s base target).2 ≠ log_file s.
Proof.
  destruct (fetch_frame e base target) as (v & logs & Hlogs & ->). cbn.
  split; intros H; apply (f_equal length) in H;
    rewrite List.length_app in H; destruct logs; cbn in H; try done; lia.
Qed.

(** C7: on the convert action, when the two currencies are equal or the
    amount is at most zero, the handler shows one warning and calls
    [get_exchange_rate] not at all: no request is sent and no log record
    is written. *)
Theorem invalid_input_is_rejected_before_fetch e s from_c to_c amount :
  button_clicked e "Convert" = true →
  from_c = to_c ∨ float_le_0 amount = true →
  let out := run (convert_button from_c to_c amount) e s in
  out.1 = Ok tt
  ∧ (∃ msg, page out.2 = (page s ++ [StWarning msg])%list)
  ∧ requests_sent out.2 = requests_sent s
  ∧ log_file out.2 = log_file s.
Proof.
  intros Hclick Hbad. run_page. rewrite Hclick. cbn.
  destruct (String.eqb_spec from_c to_c) as [Heq|Hne]; cbn.
  { repeat split. by eexists. }
  destruct Hbad as [?| ->]; [done|]. cbn.
  repeat split. by eexists.
Qed.

Lemma float_of_not_None rate rf : float_of rate = Some rf → is_None rate = false.
Proof. by destruct rate. Qed.

Lemma float_mul_float_of amount rate rf e s :
  float_of rate = Some rf →
  float_mul amount rate e s = (Ok (SFmul 53 1024 amount rf), s).
Proof.
  destruct rate; try discriminate; cbn.
  - by intros [= <-].
  - destruct (b64 z 0) eqn:Hz; intros [= <-]; cbv [float_of_int]; run_page; by rewrite Hz.
  - by intros [= <-].
Qed.

Lemma py_format_f_float_of p rate rf e s :
  float_of rate = Some rf →
  py_format_f p rate e s = (Ok (format_f false p rf), s).
Proof.
  destruct rate; try discriminate; cbn.
  - by intros [= <-].
  - destruct (b64 z 0) eqn:Hz; intros [= <-]; cbv [float_of_int]; run_page; by rewrite Hz.
  - by intros [= <-].
Qed.

Lemma no_point_no_decimals p str :
  all_chars not_point str = true → ¬ has_decimals p str.
Proof.
  intros Hstr (ip & fp & -> & _). revert Hstr.
  induction ip as [|c ip IH]; [discriminate|].
  change (String c ip +:+ "." +:+ fp) with (String c (ip +:+ "." +:+ fp)).
  cbn. intros [_ H]%andb_true_iff. by apply IH.
Qed.

(** C8, as stated, fails when amount * rate is not finite: for the
    amount 1e300 and the rate 1e10 the conversion succeeds and the
    product overflows, so the metric shows "inf USD", which has no
    decimal places. *)
Lemma overflowing_conversion_shows_inf :
  let out :=
    run (convert_button "GBP" "USD" (b64 (10 ^ 300) 0))
      (provider 200 steep_payload) fresh in
  out.1 = Ok tt
  ∧ match page out.2 !! 2%nat with
    | Some (StMetric _ value delta) =>
        value = "inf USD" ∧ delta = "1 GBP = 10000000000.0000 USD"
    | _ => False
    end
  ∧ ¬ has_decimals 4 "inf".
Proof.
  split; [vm_compute; reflexivity|].
  split; [vm_compute; split; reflexivity|].
  by apply no_point_no_decimals.
Qed.

(** C8, amended: on a successful conversion with a numeric rate the
    metric shows amount * rate printed with [,.4f] and the unit-rate line
    "1 FROM = rate TO" with the rate printed with [.4f]; the converted
    amount has exactly four decimal places whenever amount * rate is
    finite, and the rate whenever it is finite; for the rate 1.25 and
    the amount 10 they read 12.5000 and 1.2500. *)
Theorem conversion_shows_four_decimals e s from_c to_c amount rate rf time :
  button_clicked e "Convert" = true →
  from_c ≠ to_c →
  float_le_0 amount = false →
  (fetch e s from_c to_c).1 = Ok (rate, time) →
  float_of rate = Some rf →
  let converted := SFmul 53 1024 amount rf in
  let out := run (convert_button from_c to_c amount) e s in
  out.1 = Ok tt
  ∧ page out.2
    = (page s ++
       [ StSpinner "Fetching latest exchange rate...";
         StSuccess "Conversion successful!";
         StMetric
           (format_f false 2 amount +:+ " " +:+ from_c +:+ " in " +:+ to_c)
           (format_f true 4 converted +:+ " " +:+ to_c)
           ("1 " +:+ from_c +:+ " = " +:+ format_f false 4 rf +:+ " " +:+ to_c);
         StCaption time (local_now e) ])%list
  ∧ (is_finite converted = true → has_decimals 4 (format_f true 4 converted))
  ∧ (is_finite rf = true → has_decimals 4 (format_f false 4 rf))
  ∧ format_f true 4 (SFmul 53 1024 (b64 10 0) (b64 5 (-2))) = "12.5000"
  ∧ format_f false 4 (b64 5 (-2)) = "1.2500".
Proof.
  intros Hclick Hne Hpos Hfetch Hrate converted out.
  split; [|split]; [| |repeat split; auto using format_f_decimals].
  all: subst out converted; run_page; rewrite Hclick; cbn.
  all: apply String.eqb_neq in Hne; rewrite Hne, Hpos.
  all: change (get_exchange_rate from_c to_c e ?s0)
         with (fetch e s0 from_c to_c).
  all: destruct (fetch_frame e from_c to_c) as (v & logs & _ & Hf).
  all: rewrite Hf in Hfetch |- *; cbn in Hfetch; injection Hfetch as ->.
  all: rewrite (float_of_not_None _ _ Hrate).
  all: rewrite (float_mul_float_of _ _ _ _ _ Hrate).
  all: rewrite (py_format_f_float_of _ _ _ _ _ Hrate); cbn.
  - reflexivity.
  - by rewrite <- !app_assoc.
Qed.

(** ** The session state *)

Lemma keeps_session_ret {A} (a : A) : keeps_session (mret a).
Proof. by intros e s. Qed.

Lemma keeps_session_raise {A} x : keeps_session (@raise A x).
Proof. by intros e s. Qed.

Lemma keeps_session_bind {A B} (m : M A) (f : A → M B) :
  keeps_session m → (∀ a, keeps_session (f a)) → keeps_session (m ≫= f).
Proof.
  intros Hm Hf e s. specialize (Hm e s). unfold run in *.
  cbv [mbind M_bind]. destruct (m e s) as [[a|x] s']; cbn in *; [|done].
  rewrite <- Hm. apply Hf.
Qed.

Lemma keeps_session_render el : keeps_session (render el).
Proof. by intros e s. Qed.

Lemma keeps_session_ask : keeps_session ask.
Proof. by intros e s. Qed.

Lemma keeps_session_get : keeps_session get.
Proof. by intros e s. Qed.

Lemma keeps_session_fetch base target :
  keeps_session (get_exchange_rate base target).
Proof.
  intros e s. destruct (fetch_frame e base target) as (v & logs & _ & Hf).
  change (run (get_exchange_rate base target) e s) with (fetch e s base target).
  by rewrite Hf.
Qed.

Lemma keeps_session_float_of_int z : keeps_session (float_of_int z).
Proof. intros e s. unfold float_of_int. by destruct (b64 z 0). Qed.

Create HintDb session discriminated.
#[local] Hint Resolve keeps_session_ret keeps_session_raise keeps_session_render
  keeps_session_ask keeps_session_get keeps_session_fetch
  keeps_session_float_of_int : session.
#[local] Hint Extern 2 (keeps_session (_ ≫= _)) =>
  apply keeps_session_bind; [|intros ?] : session.
#[local] Hint Extern 3 (keeps_session (match ?x with _ => _ end)) =>
  destruct x : session.

Lemma keeps_session_convert_button from_c to_c amount :
  keeps_session (convert_button from_c to_c amount).
Proof.
  unfold convert_button, when, st_button, st_warning, st_error, st_success,
    st_spinner, st_metric, st_caption, now_strftime, float_mul, py_format_f.
  auto 20 with session.
Qed.

Lemma keeps_session_converter : keeps_session converter.
Proof.
  unfold converter, st_subheader, st_selectbox, st_number_input, session_get,
    list_index.
  auto 20 using keeps_session_convert_button with session.
Qed.

Ltac run_script :=
  cbv [script init_defaults quick_presets preset_selector];
  run_page.

Lemma converter_session e s :
  session_state (converter e s).2 = session_state s.
Proof. apply keeps_session_converter. Qed.

(** C9: after a run of the script in which a preset other than "Custom"
    is selected, the stored base and target currencies are that preset's
    pair; after a run in which "Custom" is selected, every selection that
    was stored is still stored unchanged. *)
Theorem preset_overwrites_custom_keeps e s :
  let label := selectbox_value e preset_selector in
  let after := session_state (run script e s).2 in
  (label ∈ preset_map.*1 → label ≠ "Custom" →
   ∃ base target,
     assoc preset_map label = Some (Some base, Some target)
     ∧ after !! "from_currency" = Some base
     ∧ after !! "to_currency" = Some target)
  ∧ (label = "Custom" →
     ∀ key v, session_state s !! key = Some v → after !! key = Some v).
Proof.
  intros label after. subst label after. split.
  - intros Hin Hne. cbn in Hin. unfold preset_selector in *.
    rewrite !elem_of_cons, elem_of_nil in Hin.
    destruct Hin as [H|[H|[H|[H|[H|[H|[]]]]]]]; [done|..];
      run_script; rewrite H; cbn;
      repeat case_bool_decide; cbn;
      rewrite converter_session; cbn;
      eexists _, _; (split; [reflexivity|]); by simplify_map_eq.
  - unfold preset_selector. intros H key v Hv.
    run_script. rewrite H. cbn.
    repeat case_bool_decide; cbn; rewrite converter_session; cbn;
      simplify_map_eq; try done.
Qed.

Lemma invalid_input_is_rejected_before_fetch_witness :
  let same :=
    run (convert_button "GBP" "GBP" (b64 10 0))
      (provider 200 sample_payload) fresh in
  let zero :=
    run (convert_button "GBP" "USD" (S754_zero false))
      (provider 200 sample_payload) fresh in
  (same.1 = Ok tt
   ∧ (∃ msg, page same.2 = [StWarning msg])
   ∧ requests_sent same.2 = [] ∧ log_file same.2 = [])
  ∧ (zero.1 = Ok tt
     ∧ (∃ msg, page zero.2 = [StWarning msg])
     ∧ requests_sent zero.2 = [] ∧ log_file zero.2 = []).
Proof.
  split.
  - apply (invalid_input_is_rejected_before_fetch
             (provider 200 sample_payload) fresh "GBP" "GBP" (b64 10 0));
      [reflexivity | left; reflexivity].
  - apply (invalid_input_is_rejected_before_fetch
             (provider 200 sample_payload) fresh "GBP" "USD" (S754_zero false));
      [reflexivity | right; reflexivity].
Defined.

Lemma conversion_shows_four_decimals_witness :
  let out :=
    run (convert_button "GBP" "USD" (b64 10 0))
      (provider 200 sample_payload) fresh in
  out.1 = Ok tt
  ∧ page out.2
    = [ StSpinner "Fetching latest exchange rate...";
        StSuccess "Conversion successful!";
        StMetric "10.00 GBP in USD" "12.5000 USD" "1 GBP = 1.2500 USD";
        StCaption (PyStr "Fri, 02 Apr 2020 00:06:37 +0000")
          "2026-01-01 12:00:00" ]
  ∧ has_decimals 4 "12.5000"
  ∧ has_decimals 4 "1.2500".
Proof.
  destruct (conversion_shows_four_decimals
              (provider 200 sample_payload) fresh "GBP" "USD" (b64 10 0)
              (PyFloat (b64 5 (-2))) (b64 5 (-2))
              (PyStr "Fri, 02 Apr 2020 00:06:37 +0000"))
    as (Hok & Hpage & Hvalue & Hrate & _).
  - reflexivity.
  - discriminate.
  - reflexivity.
  - reflexivity.
  - reflexivity.
  - split; [exact Hok|]. split; [exact Hpage|].
    split; [apply Hvalue | apply Hrate]; reflexivity.
Defined.

Lemma preset_overwrites_custom_keeps_witness :
  (∃ base target,
     assoc preset_map "EUR → GBP" = Some (Some base, Some target)
     ∧ session_state (run script (offline "EUR → GBP") chosen).2
         !! "from_currency" = Some base
     ∧ session_state (run script (offline "EUR → GBP") chosen).2
         !! "to_currency" = Some target)
  ∧ session_state (run script (offline "Custom") chosen).2
      !! "from_currency" = Some "USD"
  ∧ session_state (run script (offline "Custom") chosen).2
      !! "to_currency" = Some "JPY".
Proof.
  split; [|split].
  - apply (preset_overwrites_custom_keeps (offline "EUR → GBP") chosen).
    + refine (bool_decide_unpack _ _). vm_compute. exact I.
    + discriminate.
  - apply (preset_overwrites_custom_keeps (offline "Custom") chosen);
      reflexivity.
  - apply (preset_overwrites_custom_keeps (offline "Custom") chosen);
      reflexivity.
Defined.

(** The first run of the script with the source's example answer: the
    default preset, 10 GBP to USD at 1.25. *)
Example script_first_run :
  let e := sample_env
             (Responds (Response 200 (Some (PyDict sample_payload))))
             "GBP → USD (default)" "GBP" "USD" (b64 10 0) true in
  let out := run script e fresh in
  out.1 = Ok tt
  ∧ requests_sent out.2 = [("https://open.er-api.com/v6/latest/GBP", 10)]
  ∧ session_state out.2 !! "from_currency" = Some "GBP"
  ∧ session_state out.2 !! "to_currency" = Some "USD"
  ∧ last (page out.2)
    = Some (StCaption (PyStr "Fri, 02 Apr 2020 00:06:37 +0000")
              "2026-01-01 12:00:00")
  ∧ page out.2 !! 6%nat
    = Some (StMetric "10.00 GBP in USD" "12.5000 USD" "1 GBP = 1.2500 USD").
Proof. repeat split; reflexivity. Qed.

(** * Further properties of the rate fetcher *)

Lemma upper_ascii_idempotent c : upper_ascii (upper_ascii c) = upper_ascii c.
Proof. by destruct c as [[] [] [] [] [] [] [] []]. Qed.

Lemma upper_idempotent s : upper (upper s) = upper s.
Proof.
  induction s as [|c s IH]; [reflexivity|].
  cbn. by rewrite upper_ascii_idempotent, IH.
Qed.

Lemma api_url_upper base : api_url (upper base) = api_url base.
Proof. unfold api_url. by rewrite upper_idempotent. Qed.

(** The returned value hangs on the codes through the url and the
    uppercased target only, and not on the state. *)
Lemma fetch_value_ext e s1 s2 b1 b2 t1 t2 :
  api_url b1 = api_url b2 → upper t1 = upper t2 →
  (fetch e s1 b1 t1).1 = (fetch e s2 b2 t2).1.
Proof.
  intros Hb Ht. run_monad. cbn. rewrite Hb, Ht.
  destruct (network e (api_url b2) 10) as [x|[status body]]; cbn;
    [reflexivity|].
  destruct ((400 <=? status) && (status <? 600)); cbn; [reflexivity|].
  destruct body as [[| | | | | |d]|]; cbn; try reflexivity.
  destruct (py_ne_str _ _); cbn; [reflexivity|].
  destruct (d !! "rates") as [[| | | | | |rates]|]; cbn; try reflexivity.
  destruct (is_None _); reflexivity.
Qed.

Ltac log_outcome :=
  split; [reflexivity|]; cbn; split; intros ?;
  first [congruence | by repeat split | reflexivity].

(** The whole effect of a call: the value, the one request and the two
    records of the log. *)
Lemma fetch_log e base target :
  ∃ v outcome, ∀ s,
    fetch e s base target =
      (Ok v, State (requests_sent s ++ [(api_url base, 10)])
                   (log_file s ++ [request_record base target; outcome])
                   (session_state s) (page s))
    ∧ (is_None v.1 = true →
       v = Failure ∧ log_level outcome = ERROR ∧ formats outcome = true)
    ∧ (is_None v.1 = false →
       outcome = received_record base target v.1 v.2).
Proof.
  run_monad. cbn.
  destruct (network e (api_url base) 10) as [x|[status body]]; cbn.
  { eexists _, _. intros s. rewrite <- ?app_assoc. log_outcome. }
  destruct ((400 <=? status) && (status <? 600)); cbn.
  { eexists _, _. intros s. rewrite <- ?app_assoc. log_outcome. }
  repeat (case_match; cbn); simplify_eq;
    eexists _, _; intros ?; cbn; rewrite <- ?app_assoc; log_outcome.
Qed.

Lemma formats_request base target :
  formats (request_record base target) = true.
Proof. reflexivity. Qed.

(** The record of a rate leaves a line exactly when [%f] can format the
    rate. *)
Lemma formats_received base target rate time :
  formats (received_record base target rate time) = true
  ↔ is_Some (float_of rate).
Proof.
  cbn. rewrite andb_true_r. apply bool_decide_eq_true.
Qed.

(** What two logging calls, the first of which formats, add to the
    file. *)
Lemma written_two s s' r outcome :
  log_file s' = (log_file s ++ [r; outcome])%list →
  formats r = true →
  written s'
  = (written s ++ r :: (if formats outcome then [outcome] else []))%list.
Proof.
  intros Hlog Hr. unfold written. rewrite Hlog, filter_app.
  rewrite filter_cons_True by done. f_equal. f_equal.
  destruct (formats outcome) eqn:Hout.
  - by rewrite filter_cons_True.
  - rewrite filter_cons_False; [done|]. by rewrite Hout.
Qed.

(** X1: the codes are case-insensitive: a call returns what the call
    with both codes uppercased returns. *)
Theorem fetch_is_case_insensitive e s base target :
  (fetch e s base target).1 = (fetch e s (upper base) (upper target)).1.
Proof.
  apply fetch_value_ext; [by rewrite api_url_upper|by rewrite upper_idempotent].
Qed.

(** X2: every call makes exactly two logging calls, the request call and
    one outcome call, and the outcome call is at level ERROR exactly
    when the call returns (None, None).  The file gets the line of the
    request and the line of the outcome when the outcome formats, which
    an ERROR outcome always does. *)
Theorem fetch_logs_request_and_outcome e s base target :
  ∃ outcome,
    log_file (fetch e s base target).2
    = (log_file s ++ [request_record base target; outcome])%list
    ∧ (log_level outcome = ERROR ↔ (fetch e s base target).1 = Ok Failure)
    ∧ written (fetch e s base target).2
      = (written s ++ request_record base target
           :: (if formats outcome then [outcome] else []))%list
    ∧ (log_level outcome = ERROR → formats outcome = true).
Proof.
  destruct (fetch_log e base target) as (v & outcome & H).
  destruct (H s) as (-> & Hnone & Hsome). exists outcome.
  split; [reflexivity|]. destruct v as [rate time].
  split; [|split].
  - cbn in *. destruct (is_None rate) eqn:Hrate.
    + destruct Hnone as (-> & ? & ?); done.
    + rewrite Hsome by done. split; [discriminate|].
      intros [= -> _]. discriminate.
  - apply (written_two s); [reflexivity|apply formats_request].
  - cbn [fst] in *. destruct (is_None rate) eqn:Hrate.
    + destruct Hnone as (_ & _ & ?); done.
    + rewrite Hsome by done. discriminate.
Qed.

(** X3: a call that returns a rate makes, after the request call, the
    "Rate received" logging call, whose arguments are the base, the
    rate, the target and the provider's time as they are.  The call
    leaves its line in the file when the rate is a number [%f] can
    format; for any other rate the file gets the line of the request
    only. *)
Theorem fetch_logs_the_rate e s base target rate time :
  (fetch e s base target).1 = Ok (rate, time) →
  rate ≠ PyNone →
  let s' := (fetch e s base target).2 in
  log_file s'
  = (log_file s ++ [request_record base target;
                    received_record base target rate time])%list
  ∧ (is_Some (float_of rate) →
     written s'
     = (written s ++ [request_record base target;
                      received_record base target rate time])%list)
  ∧ (float_of rate = None →
     written s' = (written s ++ [request_record base target])%list).
Proof.
  intros Hfetch Hrate s'.
  assert (log_file s'
          = (log_file s ++ [request_record base target;
                            received_record base target rate time])%list)
    as Hlog.
  { subst s'. revert Hfetch.
    destruct (fetch_log e base target) as (v & outcome & H).
    destruct (H s) as (-> & _ & Hsome). cbn. intros [= ->].
    rewrite Hsome; [reflexivity|]. by destruct rate. }
  split; [exact Hlog|].
  pose proof (written_two s s' _ _ Hlog (formats_request base target)) as Hw.
  pose proof (formats_received base target rate time) as Hf.
  split.
  - intros Hnum. apply Hf in Hnum. by rewrite Hnum in Hw.
  - intros Hnone. rewrite Hw.
    destruct (formats (received_record base target rate time)); [|done].
    destruct Hf as [Hf _]. destruct (Hf eq_refl) as [? ?]. congruence.
Qed.

Lemma fetch_logs_the_rate_witness :
  let s' := (fetch (provider 200 sample_payload) fresh "gbp" "usd").2 in
  log_file s'
  = [request_record "gbp" "usd";
     received_record "gbp" "usd" (PyFloat (b64 5 (-2)))
       (PyStr "Fri, 02 Apr 2020 00:06:37 +0000")]
  ∧ written s' = log_file s'.
Proof.
  destruct (fetch_logs_the_rate (provider 200 sample_payload) fresh
              "gbp" "usd" (PyFloat (b64 5 (-2)))
              (PyStr "Fri, 02 Apr 2020 00:06:37 +0000"))
    as (Hlog & Hnum & _); [reflexivity | discriminate |].
  split; [exact Hlog|].
  rewrite Hnum by (eexists; reflexivity). by rewrite Hlog.
Defined.

(** X4: when the request itself raises (timeout, connection error), the
    call returns (None, None) and logs that exception with the two codes
    as they were passed. *)
Theorem failed_request_is_logged e s base target x :
  network e (api_url base) 10 = Fails x →
  fetch e s base target
  = (Ok Failure, after_call s base target (exception_record base target x)).
Proof.
  intros Hnet. run_monad. cbn. rewrite Hnet. cbn.
  unfold after_call. by rewrite <- app_assoc.
Qed.

Lemma failed_request_is_logged_witness :
  fetch timed_out fresh "gbp" "usd"
  = (Ok Failure,
     State [("https://open.er-api.com/v6/latest/GBP", 10)]
       [request_record "gbp" "usd"; exception_record "gbp" "usd" Timeout]
       ∅ []).
Proof.
  apply (failed_request_is_logged timed_out fresh "gbp" "usd" Timeout).
  reflexivity.
Defined.

(** X5: an answer with a status from 400 to 599 is a failure whatever its
    body, logged as the HTTPError of that status. *)
Theorem error_status_is_logged e s base target r :
  answers e base r →
  error_status (status_code r) →
  fetch e s base target
  = (Ok Failure,
     after_call s base target
       (exception_record base target (HTTPError (status_code r)))).
Proof.
  unfold answers. intros Hnet Hst. run_monad. cbn. rewrite Hnet.
  rewrite (raise_for_status_error _ Hst). cbn.
  unfold after_call. by rewrite <- app_assoc.
Qed.

Lemma error_status_is_logged_witness :
  fetch (provider 503 sample_payload) fresh "GBP" "USD"
  = (Ok Failure,
     after_call fresh "GBP" "USD"
       (exception_record "GBP" "USD" (HTTPError 503))).
Proof.
  apply (error_status_is_logged (provider 503 sample_payload) fresh
           "GBP" "USD" (Response 503 (Some (PyDict sample_payload)))).
  - reflexivity.
  - unfold error_status; simpl; lia.
Defined.

(** X6: an accepted answer whose body is not JSON is a failure, logged as
    the decoding error. *)
Theorem unparsable_body_is_failure e s base target r :
  answers e base r →
  ¬ error_status (status_code r) →
  json_body r = None →
  fetch e s base target
  = (Ok Failure,
     after_call s base target (exception_record base target JSONDecodeError)).
Proof.
  unfold answers. intros Hnet Hst Hjson. run_monad. cbn. rewrite Hnet.
  rewrite (raise_for_status_ok _ Hst), Hjson. cbn.
  unfold after_call. by rewrite <- app_assoc.
Qed.

Lemma unparsable_body_is_failure_witness :
  fetch garbled fresh "GBP" "USD"
  = (Ok Failure,
     after_call fresh "GBP" "USD"
       (exception_record "GBP" "USD" JSONDecodeError)).
Proof.
  apply (unparsable_body_is_failure garbled fresh "GBP" "USD"
           (Response 200 None)).
  - reflexivity.
  - unfold error_status; simpl; lia.
  - reflexivity.
Defined.

(** X7: an accepted answer whose JSON is not an object (an array, a
    number, a string, null) is a failure: the [.get] on it raises and the
    except clause logs the AttributeError. *)
Theorem non_object_body_is_failure e s base target r data :
  answers e base r →
  ¬ error_status (status_code r) →
  json_body r = Some data →
  is_dict data = false →
  fetch e s base target
  = (Ok Failure,
     after_call s base target (exception_record base target AttributeError)).
Proof.
  unfold answers. intros Hnet Hst Hjson Hdata. run_monad. cbn. rewrite Hnet.
  rewrite (raise_for_status_ok _ Hst), Hjson.
  destruct data; try discriminate; cbn;
    unfold after_call; by rewrite <- app_assoc.
Qed.

Lemma non_object_body_is_failure_witness :
  fetch listed fresh "GBP" "USD"
  = (Ok Failure,
     after_call fresh "GBP" "USD"
       (exception_record "GBP" "USD" AttributeError)).
Proof.
  apply (non_object_body_is_failure listed fresh "GBP" "USD"
           (Response 200 (Some (PyList [PyInt 1]))) (PyList [PyInt 1])).
  - reflexivity.
  - unfold error_status; simpl; lia.
  - reflexivity.
  - reflexivity.
Defined.

(** X8: a "success" answer whose rates field is present but is not an
    object is a failure too, by the same AttributeError. *)
Theorem non_object_rates_is_failure e s base target r d rates :
  answers e base r →
  ¬ error_status (status_code r) →
  json_body r = Some (PyDict d) →
  d !! "result" = Some (PyStr "success") →
  d !! "rates" = Some rates →
  is_dict rates = false →
  fetch e s base target
  = (Ok Failure,
     after_call s base target (exception_record base target AttributeError)).
Proof.
  unfold answers. intros Hnet Hst Hjson Hres Hrates Hd. run_monad. cbn.
  rewrite Hnet, (raise_for_status_ok _ Hst), Hjson, Hres. cbn.
  rewrite Hrates.
  destruct rates; try discriminate; cbn;
    unfold after_call; by rewrite <- app_assoc.
Qed.

Lemma non_object_rates_is_failure_witness :
  fetch (provider 200 (<["rates" := PyList []]> sample_payload)) fresh
    "GBP" "USD"
  = (Ok Failure,
     after_call fresh "GBP" "USD"
       (exception_record "GBP" "USD" AttributeError)).
Proof.
  apply (non_object_rates_is_failure
           (provider 200 (<["rates" := PyList []]> sample_payload)) fresh
           "GBP" "USD"
           (Response 200
              (Some (PyDict (<["rates" := PyList []]> sample_payload))))
           (<["rates" := PyList []]> sample_payload) (PyList [])).
  - reflexivity.
  - unfold error_status; simpl; lia.
  - reflexivity.
  - reflexivity.
  - reflexivity.
  - reflexivity.
Defined.

(** X9: when the rates table has no rate for the uppercased target, or
    has null there, the call returns (None, None) and logs the target
    code as it was passed together with the whole answer. *)
Theorem missing_or_null_rate_is_logged e s base target r d rates :
  answers e base r →
  ¬ error_status (status_code r) →
  json_body r = Some (PyDict d) →
  d !! "result" = Some (PyStr "success") →
  d !! "rates" = Some (PyDict rates) →
  default PyNone (rates !! upper target) = PyNone →
  fetch e s base target
  = (Ok Failure,
     after_call s base target (not_found_record target (PyDict d))).
Proof.
  unfold answers. intros Hnet Hst Hjson Hres Hrates Hrate. run_monad. cbn.
  rewrite Hnet, (raise_for_status_ok _ Hst), Hjson, Hres. cbn.
  rewrite Hrates. cbn. rewrite Hrate. cbn.
  unfold after_call. by rewrite <- app_assoc.
Qed.

Lemma missing_or_null_rate_is_logged_witness :
  fetch (provider 200 null_payload) fresh "GBP" "usd"
  = (Ok Failure,
     after_call fresh "GBP" "usd"
       (not_found_record "usd" (PyDict null_payload))).
Proof.
  apply (missing_or_null_rate_is_logged (provider 200 null_payload) fresh
           "GBP" "usd" (Response 200 (Some (PyDict null_payload)))
           null_payload (<["USD" := PyNone]> ∅)).
  - reflexivity.
  - unfold error_status; simpl; lia.
  - reflexivity.
  - reflexivity.
  - reflexivity.
  - reflexivity.
Defined.

(** X10: a call never touches the session state or the page. *)
Theorem fetch_keeps_session_and_page e s base target :
  session_state (fetch e s base target).2 = session_state s
  ∧ page (fetch e s base target).2 = page s.
Proof.
  destruct (fetch_log e base target) as (v & outcome & H).
  by destruct (H s) as (-> & _).
Qed.

(** * Further properties of the conversion page *)

Ltac enter_handler Hclick Hne Hpos :=
  run_page; rewrite Hclick; cbn;
  apply String.eqb_neq in Hne; rewrite Hne, Hpos;
  change (get_exchange_rate ?b ?t ?e ?s0) with (fetch e s0 b t).

(** X11: when the inputs are valid and [get_exchange_rate] returns
    (None, None), the handler shows the spinner and the generic error and
    nothing else, and ends normally. *)
Theorem failed_fetch_shows_error e s from_c to_c amount :
  button_clicked e "Convert" = true →
  from_c ≠ to_c →
  float_le_0 amount = false →
  (fetch e s from_c to_c).1 = Ok Failure →
  let out := run (convert_button from_c to_c amount) e s in
  out.1 = Ok tt
  ∧ page out.2
    = (page s ++
       [ StSpinner "Fetching latest exchange rate...";
         StError "Unable to fetch exchange rate. Please try again later." ])%list.
Proof.
  intros Hclick Hne Hpos Hfetch out. subst out.
  destruct (fetch_frame e from_c to_c) as (v & logs & _ & Hf).
  rewrite Hf in Hfetch. injection Hfetch as ->.
  enter_handler Hclick Hne Hpos. rewrite Hf. cbn.
  split; [reflexivity|]. by rewrite <- app_assoc.
Qed.

(** X12: on valid input the handler calls [get_exchange_rate] exactly
    once, for the selected pair: one request to the url of the base and
    two logging calls are added, whatever the answer and whatever
    happens to the result afterwards.  The file gets the line of the
    request and at most the line of the outcome. *)
Theorem valid_input_sends_one_request e s from_c to_c amount :
  button_clicked e "Convert" = true →
  from_c ≠ to_c →
  float_le_0 amount = false →
  let out := run (convert_button from_c to_c amount) e s in
  requests_sent out.2 = (requests_sent s ++ [(api_url from_c, 10)])%list
  ∧ ∃ outcome,
      log_file out.2
      = (log_file s ++ [request_record from_c to_c; outcome])%list
      ∧ written out.2
        = (written s ++ request_record from_c to_c
             :: (if formats outcome then [outcome] else []))%list.
Proof.
  intros Hclick Hne Hpos out.
  assert (requests_sent out.2
          = (requests_sent s ++ [(api_url from_c, 10)])%list
          ∧ ∃ outcome,
              log_file out.2
              = (log_file s ++ [request_record from_c to_c; outcome])%list)
    as [Hreq [outcome Hlog]].
  { subst out.
    destruct (fetch_log e from_c to_c) as ([rate time] & outcome & Hf).
    pose proof (λ s0, proj1 (Hf s0)) as Hf'.
    enter_handler Hclick Hne Hpos. rewrite Hf'. cbn.
    destruct rate; cbv [float_mul py_format_f float_of_int]; run_page; cbn;
      try destruct (b64 z 0); cbn; by eauto. }
  split; [exact Hreq|]. exists outcome. split; [exact Hlog|].
  by apply written_two; [|apply formats_request].
Qed.

(** X13: when the provider's rate is a str, a list or an object, the
    call succeeds but [amount * rate] raises TypeError in the handler,
    which nothing catches: the page shows the spinner and no result. *)
Theorem non_numeric_rate_raises e s from_c to_c amount rate time :
  button_clicked e "Convert" = true →
  from_c ≠ to_c →
  float_le_0 amount = false →
  (fetch e s from_c to_c).1 = Ok (rate, time) →
  not_a_number rate = true →
  let out := run (convert_button from_c to_c amount) e s in
  out.1 = Raise TypeError
  ∧ page out.2
    = (page s ++ [StSpinner "Fetching latest exchange rate..."])%list.
Proof.
  intros Hclick Hne Hpos Hfetch Hrate out. subst out.
  destruct (fetch_frame e from_c to_c) as (v & logs & _ & Hf).
  rewrite Hf in Hfetch. injection Hfetch as ->.
  enter_handler Hclick Hne Hpos. rewrite Hf. cbn.
  by destruct rate.
Qed.

(** X14: an int rate too large for a float makes [amount * rate] raise
    OverflowError in the handler. *)
Theorem oversized_int_rate_raises e s from_c to_c amount z sign time :
  button_clicked e "Convert" = true →
  from_c ≠ to_c →
  float_le_0 amount = false →
  (fetch e s from_c to_c).1 = Ok (PyInt z, time) →
  b64 z 0 = S754_infinity sign →
  let out := run (convert_button from_c to_c amount) e s in
  out.1 = Raise OverflowError
  ∧ page out.2
    = (page s ++ [StSpinner "Fetching latest exchange rate..."])%list.
Proof.
  intros Hclick Hne Hpos Hfetch Hz out. subst out.
  destruct (fetch_frame e from_c to_c) as (v & logs & _ & Hf).
  rewrite Hf in Hfetch. injection Hfetch as ->.
  enter_handler Hclick Hne Hpos. rewrite Hf. cbn.
  cbv [float_mul float_of_int]. run_page. by rewrite Hz.
Qed.

Section Quiet.
Variable e : env.

Lemma quiet_ret {A} (a : A) : quiet e (mret a).
Proof. by intros s. Qed.

Lemma quiet_raise {A} x : quiet e (@raise A x).
Proof. by intros s. Qed.

Lemma quiet_bind {A B} (m : M A) (f : A → M B) :
  quiet e m → (∀ a, quiet e (f a)) → quiet e (m ≫= f).
Proof.
  intros Hm Hf s. specialize (Hm s). unfold run in *.
  cbv [mbind M_bind]. destruct (m e s) as [[a|x] s']; cbn in *; [|done].
  destruct Hm as [<- <-]. apply Hf.
Qed.

Lemma quiet_render el : quiet e (render el).
Proof. by intros s. Qed.

Lemma quiet_ask : quiet e ask.
Proof. by intros s. Qed.

Lemma quiet_get : quiet e get.
Proof. by intros s. Qed.

Lemma quiet_session_set key value : quiet e (session_set key value).
Proof. by intros s. Qed.

Lemma quiet_unclicked from_c to_c amount :
  button_clicked e "Convert" = false →
  quiet e (convert_button from_c to_c amount).
Proof. intros Hclick s. unfold run. run_page. by rewrite Hclick. Qed.
End Quiet.

Create HintDb quiet discriminated.
#[local] Hint Resolve quiet_ret quiet_raise quiet_render quiet_ask quiet_get
  quiet_session_set quiet_unclicked : quiet.
#[local] Hint Extern 2 (quiet _ (_ ≫= _)) =>
  apply quiet_bind; [|intros ?] : quiet.
#[local] Hint Extern 3 (quiet _ (match ?x with _ => _ end)) =>
  destruct x : quiet.

(** X15: a run of the script in which Convert is not clicked sends no
    request and writes no log record, whatever the widgets return and
    whether or not the run ends with an exception. *)
Theorem unclicked_run_is_quiet e s :
  button_clicked e "Convert" = false →
  requests_sent (run script e s).2 = requests_sent s
  ∧ log_file (run script e s).2 = log_file s.
Proof.
  intros Hclick. revert s. change (quiet e script).
  unfold script, converter, init_defaults, quick_presets, when, st_title,
    st_write, st_subheader, st_selectbox, st_number_input, session_get,
    session_lacks, list_index, dict_getitem.
  auto 30 with quiet.
Qed.

Lemma preset_currencies_listed label base target :
  assoc preset_map label = Some (Some base, Some target) →
  base ∈ currency_list ∧ target ∈ currency_list.
Proof.
  cbv [assoc preset_map]. intros H.
  repeat case_match; simplify_eq;
    split; refine (bool_decide_unpack _ _); vm_compute; exact I.
Qed.

Lemma valid_preset_assoc label :
  label ∈ preset_map.*1 → is_Some (assoc preset_map label).
Proof.
  cbn. rewrite !elem_of_cons, elem_of_nil.
  intros H. destruct_or!; subst; try done; by eexists.
Qed.

Ltac split_presets :=
  run_script;
  destruct (assoc preset_map _) as [[[?b|] [?t|]]|] eqn:?Hp;
  cbn; repeat case_bool_decide; cbn; rewrite ?converter_session; cbn.

(** After any run of the script, even one that raises, both selections
    are stored. *)
Lemma script_stores_selections e s :
  is_Some (session_state (run script e s).2 !! "from_currency")
  ∧ is_Some (session_state (run script e s).2 !! "to_currency").
Proof.
  split_presets; split; simplify_map_eq; try done;
    by apply not_eq_None_Some.
Qed.

(** X16: after any run of the script, even one that raises, both
    from_currency and to_currency are stored; with "Custom" selected each
    one is what was stored before the run, or the default (GBP, USD)
    when nothing was. *)
Theorem selections_stored_with_defaults e s :
  let after := session_state (run script e s).2 in
  (is_Some (after !! "from_currency") ∧ is_Some (after !! "to_currency"))
  ∧ (selectbox_value e preset_selector = "Custom" →
     after !! "from_currency"
     = Some (default "GBP" (session_state s !! "from_currency"))
     ∧ after !! "to_currency"
       = Some (default "USD" (session_state s !! "to_currency"))).
Proof.
  intros after. subst after. split; [apply script_stores_selections|].
  unfold preset_selector. intros Hlabel. run_script. rewrite Hlabel. cbn.
  repeat case_bool_decide; cbn in *; rewrite converter_session; cbn;
    repeat (rewrite lookup_insert_ne in * by done);
    destruct (session_state s !! "from_currency") eqn:Ef;
    destruct (session_state s !! "to_currency") eqn:Et; try done;
    repeat first [ rewrite lookup_insert_eq
                 | rewrite lookup_insert_ne by done ];
    by rewrite ?Ef, ?Et.
Qed.

(** X17: a run of the script changes no key of the session state other
    than from_currency and to_currency, and the two keys under which
    Streamlit keeps the keyed selectboxes. *)
Theorem other_keys_are_untouched e s key :
  key ≠ "from_currency" → key ≠ "to_currency" → key ∉ widget_keys →
  session_state (run script e s).2 !! key = session_state s !! key.
Proof.
  intros Hf Ht _. split_presets; by rewrite ?lookup_insert_ne.
Qed.

Lemma run_keeps_good_session e s :
  good_session (session_state s) →
  good_session (session_state (run script e s).2).
Proof.
  intros [Hfrom Hto]. unfold good_session, listed_selection in *.
  assert (Hgbp : "GBP" ∈ currency_list)
    by (refine (bool_decide_unpack _ _); vm_compute; exact I).
  assert (Husd : "USD" ∈ currency_list)
    by (refine (bool_decide_unpack _ _); vm_compute; exact I).
  split_presets;
    try (apply preset_currencies_listed in Hp as [Hb Ht]);
    split; intros v Hv;
    repeat (rewrite lookup_insert_ne in Hv by done);
    rewrite ?lookup_insert_eq in Hv;
    repeat (rewrite lookup_insert_ne in Hv by done);
    simplify_eq; eauto.
Qed.

(** X18: the stored selections stay within the currency list: if they
    are listed currencies (or not yet stored) before a sequence of runs,
    they are after it, whatever the user does in each run. *)
Theorem runs_keep_good_session es s :
  good_session (session_state s) →
  good_session (session_state (runs es s)).
Proof.
  revert s. induction es as [|e es IH]; intros s Hs; [exact Hs|].
  cbn. apply IH. by apply run_keeps_good_session.
Qed.

Lemma index_of_elem l v : v ∈ l → is_Some (index_of l v).
Proof.
  induction 1 as [v l|v w l _ IH]; cbn.
  - rewrite String.eqb_refl. by eexists.
  - destruct (String.eqb w v); [by eexists|].
    destruct IH as [i ->]. by eexists.
Qed.

Lemma handler_result_ext e s1 s2 from_c to_c amount :
  (run (convert_button from_c to_c amount) e s1).1
  = (run (convert_button from_c to_c amount) e s2).1.
Proof.
  destruct (fetch_frame e from_c to_c) as ([rate time] & logs & _ & Hf).
  run_page. destruct (button_clicked e "Convert"); cbn; [|reflexivity].
  destruct (String.eqb from_c to_c); [reflexivity|].
  destruct (float_le_0 amount); [reflexivity|].
  change (get_exchange_rate ?b ?t ?e ?s0) with (fetch e s0 b t).
  rewrite !Hf. cbn.
  destruct rate; cbv [float_mul py_format_f float_of_int]; run_page; cbn;
    try destruct (b64 z 0); reflexivity.
Qed.

Ltac run_prefix :=
  cbv [script init_defaults quick_presets preset_selector run when mbind
       M_bind mret M_ret raise modify ask get st_title st_write st_subheader
       st_selectbox render session_lacks session_set dict_getitem
       add_element set_session].

Lemma script_reaches_converter e s :
  valid_preset e → ∃ s1, run script e s = run converter e s1.
Proof.
  intros [[ob ot] Hp]%valid_preset_assoc. unfold preset_selector in Hp.
  run_prefix. rewrite Hp. destruct ob, ot; cbn;
    repeat case_bool_decide; cbn; by eexists.
Qed.

Lemma converter_reaches_handler e s f t :
  session_state s !! "from_currency" = Some f → f ∈ currency_list →
  session_state s !! "to_currency" = Some t → t ∈ currency_list →
  run converter e s
  = run (convert_button (selectbox_value e "From currency")
           (selectbox_value e "To currency")
           (number_input_value e "Amount to convert"))
      e (add_element (StSubheader "Convert") s).
Proof.
  intros Hf [i Hi]%index_of_elem Ht [j Hj]%index_of_elem.
  cbv [converter run mbind M_bind mret M_ret raise modify ask get
       st_subheader st_selectbox st_number_input render session_get
       list_index add_element].
  cbn [session_state].
  rewrite Hf; cbv beta iota. rewrite Hi; cbv beta iota; cbn [session_state].
  rewrite Ht; cbv beta iota. rewrite Hj; cbv beta iota. reflexivity.
Qed.

(** After a run from a good session both selections are stored and are
    listed currencies. *)
Lemma run_session_listed e s :
  good_session (session_state s) →
  ∃ f t,
    session_state (run script e s).2 !! "from_currency" = Some f
    ∧ f ∈ currency_list
    ∧ session_state (run script e s).2 !! "to_currency" = Some t
    ∧ t ∈ currency_list.
Proof.
  intros Hgood.
  destruct (script_stores_selections e s) as [[f Hf] [t Ht]].
  destruct (run_keeps_good_session e s Hgood) as [Hlf Hlt].
  exists f, t. split; [done|]. split; [by apply Hlf|].
  split; [done|by apply Hlt].
Qed.

(** X19: from a session whose stored selections are listed currencies
    and with a preset of the list selected, the script builds its
    selectors without an exception ([preset_map[...]], the session
    attributes and [currency_list.index] all succeed): the run ends as
    the Convert handler ends on the widgets' values. *)
Theorem script_raises_only_in_the_handler e s :
  good_session (session_state s) →
  valid_preset e →
  (run script e s).1
  = (run (convert_button (selectbox_value e "From currency")
            (selectbox_value e "To currency")
            (number_input_value e "Amount to convert")) e s).1.
Proof.
  intros Hgood Hvalid.
  destruct (script_reaches_converter e s Hvalid) as [s1 Hs].
  destruct (run_session_listed e s Hgood) as (f & t & Hf & Hlf & Ht & Hlt).
  rewrite Hs in Hf, Ht. unfold run in Hf, Ht.
  rewrite converter_session in Hf, Ht.
  rewrite Hs, (converter_reaches_handler e s1 f t Hf Hlf Ht Hlt).
  apply handler_result_ext.
Qed.

(** ** Instances *)

Lemma good_session_fresh : good_session (session_state fresh).
Proof. split; intros v Hv; discriminate Hv. Defined.

Lemma good_session_chosen : good_session (session_state chosen).
Proof.
  split; intros v Hv; vm_compute in Hv; injection Hv as <-;
    refine (bool_decide_unpack _ _); vm_compute; exact I.
Defined.

Lemma failed_fetch_shows_error_witness :
  let out := run (convert_button "GBP" "USD" (b64 10 0)) timed_out fresh in
  out.1 = Ok tt
  ∧ page out.2
    = [ StSpinner "Fetching latest exchange rate...";
        StError "Unable to fetch exchange rate. Please try again later." ].
Proof.
  apply (failed_fetch_shows_error timed_out fresh "GBP" "USD" (b64 10 0));
    [reflexivity | discriminate | reflexivity | reflexivity].
Defined.

Lemma valid_input_sends_one_request_witness :
  let out :=
    run (convert_button "GBP" "USD" (b64 10 0))
      (provider 200 sample_payload) fresh in
  requests_sent out.2 = [("https://open.er-api.com/v6/latest/GBP", 10)]
  ∧ ∃ outcome,
      log_file out.2 = [request_record "GBP" "USD"; outcome]
      ∧ written out.2
        = request_record "GBP" "USD"
            :: (if formats outcome then [outcome] else []).
Proof.
  apply (valid_input_sends_one_request (provider 200 sample_payload) fresh
           "GBP" "USD" (b64 10 0));
    [reflexivity | discriminate | reflexivity].
Defined.

Lemma non_numeric_rate_raises_witness :
  let out :=
    run (convert_button "GBP" "USD" (b64 10 0))
      (provider 200 quoted_payload) fresh in
  out.1 = Raise TypeError
  ∧ page out.2 = [StSpinner "Fetching latest exchange rate..."].
Proof.
  apply (non_numeric_rate_raises (provider 200 quoted_payload) fresh
           "GBP" "USD" (b64 10 0) (PyStr "1.25") (PyStr "Unknown"));
    [reflexivity | discriminate | reflexivity | reflexivity | reflexivity].
Defined.

Lemma oversized_int_rate_raises_witness :
  let out :=
    run (convert_button "GBP" "USD" (b64 10 0))
      (provider 200 huge_payload) fresh in
  out.1 = Raise OverflowError
  ∧ page out.2 = [StSpinner "Fetching latest exchange rate..."].
Proof.
  apply (oversized_int_rate_raises (provider 200 huge_payload) fresh
           "GBP" "USD" (b64 10 0) (2 ^ 1024) false (PyStr "Unknown"));
    [reflexivity | discriminate | reflexivity | reflexivity | reflexivity].
Defined.

Lemma unclicked_run_is_quiet_witness :
  requests_sent (run script (offline "Custom") fresh).2 = []
  ∧ log_file (run script (offline "Custom") fresh).2 = [].
Proof.
  apply (unclicked_run_is_quiet (offline "Custom") fresh). reflexivity.
Defined.

Lemma selections_stored_with_defaults_witness :
  session_state (run script (offline "Custom") themed).2 !! "from_currency"
  = Some "CHF"
  ∧ session_state (run script (offline "Custom") themed).2 !! "to_currency"
    = Some "USD".
Proof.
  destruct (selections_stored_with_defaults (offline "Custom") themed)
    as [_ Hcustom].
  apply Hcustom. reflexivity.
Defined.

Lemma other_keys_are_untouched_witness :
  session_state (run script (offline "EUR → GBP") themed).2 !! "theme"
  = Some "dark".
Proof.
  apply (other_keys_are_untouched (offline "EUR → GBP") themed "theme");
    [discriminate | discriminate |].
  apply (bool_decide_unpack _). vm_compute. exact I.
Defined.

Lemma runs_keep_good_session_witness :
  good_session
    (session_state
       (runs [offline "EUR → GBP"; offline "Custom";
              provider 200 sample_payload] fresh)).
Proof.
  apply (runs_keep_good_session
           [offline "EUR → GBP"; offline "Custom";
            provider 200 sample_payload] fresh).
  exact good_session_fresh.
Defined.

Lemma script_raises_only_in_the_handler_witness :
  (run script (provider 200 sample_payload) chosen).1
  = (run (convert_button "GBP" "USD" (b64 10 0))
       (provider 200 sample_payload) chosen).1.
Proof.
  apply (script_raises_only_in_the_handler (provider 200 sample_payload)
           chosen).
  - exact good_session_chosen.
  - refine (bool_decide_unpack _ _). vm_compute. exact I.
Defined.
